(** * KPodHIDDriver: the [Start] lifecycle hook of the DriverKit extension

    The driver consists of one method,

<<
    kern_return_t
    IMPL(KPodHIDDriver, Start)
    {
        kern_return_t ret;
        ret = Start(provider, SUPERDISPATCH);
        os_log(OS_LOG_DEFAULT, "Hello World");
        return ret;
    }
>>

    It is embedded as a program over the effects a driver method can have on
    its surroundings (a call of [Start] routed to the superclass, a record
    handed to the system log, loads and stores of object memory). The
    superclass and the framework constants are not part of the driver: they
    are the parameters of the development. *)

From Stdlib Require Import ZArith NArith String Ascii.
From stdpp Require Import base option list strings gmap.

Local Open Scope Z_scope.

(** ** The part of DriverKit the driver touches *)
Module DriverKit.

(** [kern_return_t] is a C [int]; the hook only moves it around. *)
Definition kern_return_t : Type := Z.

(** Status codes of the framework (IOKit/IOReturn.h). They are used for the
    two scenarios only; the hook itself never names one. *)
Definition kIOReturnSuccess : kern_return_t := 0.
Definition kIOReturnError : kern_return_t := 0xe00002bc - 2 ^ 32.

(** Object and code pointers are addresses; [NULL] is address zero. *)
Definition ptr : Type := N.
Definition NULL : ptr := 0%N.

Definition OSDispatchMethod : Type := ptr.
Definition os_log_t : Type := ptr.

(** What [os_log] hands to the logging facility: the log object, the format
    string and the variadic arguments. *)
Record LogRecord : Type := mkLogRecord {
  rec_log : os_log_t;
  rec_format : string;
  rec_args : list Z
}.

(** A format is a literal when it holds no conversion specification. *)
Definition is_percent (c : ascii) : bool :=
  if decide (c = "%"%char) then true else false.

Fixpoint has_conversion (s : string) : bool :=
  match s with
  | EmptyString => false
  | String c s' => is_percent c || has_conversion s'
  end.

Definition is_literal (r : LogRecord) : bool :=
  negb (has_conversion (rec_format r)) && bool_decide (rec_args r = []).

(** The effects of a driver method, indexed by the type of the answer. *)
Inductive dextE : Type → Type :=
| CallStart (self provider : ptr) (supermethod : OSDispatchMethod)
    : dextE kern_return_t
| OsLog (log : os_log_t) (format : string) (args : list Z) : dextE unit
| MemLoad (addr : ptr) : dextE Z
| MemStore (addr : ptr) (v : Z) : dextE unit.

(** Method bodies: finite trees of effects ending in the returned value. *)
Inductive Prog (R : Type) : Type :=
| Ret (r : R)
| Vis (X : Type) (e : dextE X) (k : X → Prog R).
Arguments Ret {R} r.
Arguments Vis {R X} e k.

Fixpoint bind {A B : Type} (p : Prog A) (f : A → Prog B) : Prog B :=
  match p with
  | Ret a => f a
  | Vis e k => Vis e (λ x, bind (k x) f)
  end.

Definition trigger {X : Type} (e : dextE X) : Prog X := Vis e Ret.

#[global] Instance Prog_ret : MRet Prog := λ A a, Ret a.
#[global] Instance Prog_bind : MBind Prog := λ A B f p, bind p f.

(** The calls as the source writes them. *)
Definition Start (self provider : ptr) (supermethod : OSDispatchMethod)
  : Prog kern_return_t :=
  trigger (CallStart self provider supermethod).

Definition os_log (log : os_log_t) (format : string) (args : list Z)
  : Prog unit :=
  trigger (OsLog log format args).

(** What an observer of the driver sees, in order. *)
Inductive event : Type :=
| EvStart (self provider : ptr) (supermethod : OSDispatchMethod)
    (ret : kern_return_t)
| EvOsLog (r : LogRecord)
| EvLoad (addr : ptr) (v : Z)
| EvStore (addr : ptr) (v : Z).

Definition is_start (e : event) : bool :=
  match e with EvStart _ _ _ _ => true | _ => false end.
Definition is_log (e : event) : bool :=
  match e with EvOsLog _ => true | _ => false end.
Definition is_store (e : event) : bool :=
  match e with EvStore _ _ => true | _ => false end.
Definition is_load (e : event) : bool :=
  match e with EvLoad _ _ => true | _ => false end.

Definition log_of (e : event) : option LogRecord :=
  match e with EvOsLog r => Some r | _ => None end.
Definition start_of (e : event) : option (ptr * ptr * OSDispatchMethod) :=
  match e with EvStart s p m _ => Some (s, p, m) | _ => None end.

(** The records emitted, and the superclass calls made, along a trace. *)
Definition emitted (tr : list event) : list LogRecord := omap log_of tr.
Definition supercalls (tr : list event)
  : list (ptr * ptr * OSDispatchMethod) := omap start_of tr.

Section World.
(** The state of the framework and of the superclass is opaque. *)
Context {Host : Type}.

Record World : Type := mkWorld {
  syslog : list LogRecord;
  memory : gmap ptr Z;
  host : Host
}.

Definition log_append (r : LogRecord) (w : World) : World :=
  mkWorld (syslog w ++ [r]) (memory w) (host w).

Definition mem_store (a : ptr) (v : Z) (w : World) : World :=
  mkWorld (syslog w) (<[a := v]> (memory w)) (host w).

Definition mem_load (a : ptr) (w : World) : Z :=
  default 0 (memory w !! a).

(** The superclass: any function of the arguments and the world. *)
Definition Super : Type :=
  ptr → ptr → OSDispatchMethod → World → kern_return_t * World.

Definition handle (super : Super) {X : Type} (e : dextE X) (w : World)
  : X * World * event :=
  match e in dextE T return T * World * event with
  | CallStart self provider supermethod =>
      let sr := super self provider supermethod w in
      (sr.1, sr.2, EvStart self provider supermethod sr.1)
  | OsLog log format args =>
      let r := mkLogRecord log format args in
      (tt, log_append r w, EvOsLog r)
  | MemLoad a => (mem_load a w, w, EvLoad a (mem_load a w))
  | MemStore a v => (tt, mem_store a v w, EvStore a v)
  end.

Fixpoint run (super : Super) {R : Type} (p : Prog R) (w : World)
  : R * World * list event :=
  match p with
  | Ret r => (r, w, [])
  | Vis e k =>
      let '(x, w1, ev) := handle super e w in
      let '(r, w2, tr) := run super (k x) w1 in
      (r, w2, ev :: tr)
  end.

Definition result {R : Type} (o : R * World * list event) : R := o.1.1.
Definition final {R : Type} (o : R * World * list event) : World := o.1.2.
Definition trace {R : Type} (o : R * World * list event) : list event := o.2.
End World.
Arguments World : clear implicits.
Arguments Super : clear implicits.

End DriverKit.

(** ** The driver *)
Module KPodHIDDriver.
Import DriverKit.

Section Driver.
(** [SUPERDISPATCH] and [OS_LOG_DEFAULT] are macros of the framework
    headers; the hook receives their values from its surroundings. *)
Variable SUPERDISPATCH : OSDispatchMethod.
Variable OS_LOG_DEFAULT : os_log_t.

(** [IMPL(KPodHIDDriver, Start)]: the method body, run on the instance
    [self] with the argument [provider]. *)
Definition Start_Impl (self provider : ptr) : Prog kern_return_t :=
  ret ← Start self provider SUPERDISPATCH;
  os_log OS_LOG_DEFAULT "Hello World" [];;
  mret ret.

(** The one record the hook writes. *)
Definition hello : LogRecord :=
  mkLogRecord OS_LOG_DEFAULT "Hello World" [].
End Driver.

(** A superclass for the examples: it refuses a null provider, and notes
    the provider it accepted in the host state. *)
Definition sample_super : Super (list ptr) :=
  λ self provider supermethod w,
    if decide (provider = NULL) then (kIOReturnError, w)
    else (kIOReturnSuccess,
          mkWorld (syslog w) (memory w) (provider :: host w)).

Definition sample_world : World (list ptr) := mkWorld [] ∅ [].

(** The host side of repeated starts: the hook is invoked once per provider
    of the list, each invocation in the world the previous one left. The
    hook itself holds no state between two invocations, so this is all
    there is to running it several times. *)
Fixpoint start_each {Host : Type}
    (SUPERDISPATCH : OSDispatchMethod) (OS_LOG_DEFAULT : os_log_t)
    (super : Super Host) (self : ptr) (providers : list ptr)
    (w : World Host) : list kern_return_t * World Host * list event :=
  match providers with
  | [] => ([], w, [])
  | provider :: rest =>
      let o :=
        run super (Start_Impl SUPERDISPATCH OS_LOG_DEFAULT self provider) w in
      let o' :=
        start_each SUPERDISPATCH OS_LOG_DEFAULT super self rest (final o) in
      (result o :: result o', final o', trace o ++ trace o')
  end.

(** A superclass keeps the system log when it only ever adds to it, and
    keeps object memory when it never writes it. *)
Definition keeps_log {Host : Type} (super : Super Host) : Prop :=
  ∀ (self provider : ptr) (m : OSDispatchMethod) (w : World Host),
    syslog w `prefix_of` syslog (super self provider m w).2.

Definition keeps_memory {Host : Type} (super : Super Host) : Prop :=
  ∀ (self provider : ptr) (m : OSDispatchMethod) (w : World Host),
    memory (super self provider m w).2 = memory w.

(** ** What the hook does, for every superclass and every world *)
Section StartProperties.
Context {Host : Type}.
Variable SUPERDISPATCH : OSDispatchMethod.
Variable OS_LOG_DEFAULT : os_log_t.
Variable super : Super Host.

Local Abbreviation hook := (Start_Impl SUPERDISPATCH OS_LOG_DEFAULT).
Local Abbreviation hello_rec := (hello OS_LOG_DEFAULT).

(** The whole outcome of one invocation, in terms of the superclass's. *)
Lemma run_Start_Impl (self provider : ptr) (w : World Host) :
  run super (hook self provider) w =
  let sr := super self provider SUPERDISPATCH w in
  (sr.1, log_append hello_rec sr.2,
   [EvStart self provider SUPERDISPATCH sr.1; EvOsLog hello_rec]).
Proof. reflexivity. Qed.

Lemma trace_Start_Impl (self provider : ptr) (w : World Host) :
  trace (run super (hook self provider) w) =
  [EvStart self provider SUPERDISPATCH
     (super self provider SUPERDISPATCH w).1;
   EvOsLog hello_rec].
Proof. now rewrite run_Start_Impl. Qed.

Lemma final_Start_Impl (self provider : ptr) (w : World Host) :
  final (run super (hook self provider) w) =
  log_append hello_rec (super self provider SUPERDISPATCH w).2.
Proof. now rewrite run_Start_Impl. Qed.

(** C1. Pass-through: for every provider handle the hook returns exactly the
    status the superclass [Start] returned for it; nothing is translated,
    recovered or suppressed. *)
Theorem Start_returns_super_status (self provider : ptr) (w : World Host) :
  result (run super (hook self provider) w) =
  (super self provider SUPERDISPATCH w).1.
Proof. now rewrite run_Start_Impl. Qed.

(** C2. Every invocation emits exactly one log record, whatever the
    superclass answered: one log event in the trace, and the system log is
    one record longer than the superclass left it. *)
Theorem Start_emits_one_record (self provider : ptr) (w : World Host) :
  length (emitted (trace (run super (hook self provider) w))) = 1%nat ∧
  length (syslog (final (run super (hook self provider) w))) =
  S (length (syslog (super self provider SUPERDISPATCH w).2)).
Proof.
  rewrite trace_Start_Impl, final_Start_Impl. split; [reflexivity|].
  cbn [log_append syslog]. rewrite length_app. cbn. lia.
Qed.

(** C4. Every invocation makes exactly one outbound call of the superclass
    [Start], and that call carries the provider handle and the dispatch
    token the hook was given. *)
Theorem Start_calls_super_once (self provider : ptr) (w : World Host) :
  supercalls (trace (run super (hook self provider) w)) =
  [(self, provider, SUPERDISPATCH)].
Proof. now rewrite trace_Start_Impl. Qed.

(** C5. The two scenarios: when the superclass reports success the hook
    returns success and one log line is seen; when it reports a failure
    status the hook returns that status and the same single line is seen,
    with no further record. *)
Theorem Start_scenarios (self provider : ptr) (w : World Host) :
  ((super self provider SUPERDISPATCH w).1 = kIOReturnSuccess →
   result (run super (hook self provider) w) = kIOReturnSuccess ∧
   emitted (trace (run super (hook self provider) w)) = [hello_rec]) ∧
  (∀ S_ERR : kern_return_t,
     S_ERR ≠ kIOReturnSuccess →
     (super self provider SUPERDISPATCH w).1 = S_ERR →
     result (run super (hook self provider) w) = S_ERR ∧
     emitted (trace (run super (hook self provider) w)) = [hello_rec]).
Proof.
  rewrite run_Start_Impl. split.
  - intros Hok. split; [exact Hok | reflexivity].
  - intros s _ Herr. split; [exact Herr | reflexivity].
Qed.

(** C6. Order: the superclass call comes strictly before the log emission
    in every invocation; the status it produced is what the hook returns at
    the end; and the record lands on the system log as the superclass left
    it, so the superclass never sees it. *)
Theorem Start_super_before_log (self provider : ptr) (w : World Host) :
  (∀ (i j : nat) (e1 e2 : event),
     trace (run super (hook self provider) w) !! i = Some e1 →
     trace (run super (hook self provider) w) !! j = Some e2 →
     is_start e1 = true → is_log e2 = true → (i < j)%nat) ∧
  head (trace (run super (hook self provider) w)) =
    Some (EvStart self provider SUPERDISPATCH
            (result (run super (hook self provider) w))) ∧
  syslog (final (run super (hook self provider) w)) =
    syslog (super self provider SUPERDISPATCH w).2 ++ [hello_rec].
Proof.
  rewrite run_Start_Impl. cbn. split; [|split; reflexivity].
  intros i j e1 e2 Hi Hj Hs Hl.
  destruct i as [|[|i]], j as [|[|j]]; cbn in Hi, Hj; simplify_eq;
    cbn in Hs, Hl; try discriminate; lia.
Qed.

(** C7. Frame: beyond the superclass call, the single log emission is the
    hook's only effect. The world it leaves is the one the superclass left
    with that record appended; object memory and host state are the
    superclass's; the hook neither stores nor loads. *)
Theorem Start_frame (self provider : ptr) (w : World Host) :
  final (run super (hook self provider) w) =
    log_append hello_rec (super self provider SUPERDISPATCH w).2 ∧
  memory (final (run super (hook self provider) w)) =
    memory (super self provider SUPERDISPATCH w).2 ∧
  host (final (run super (hook self provider) w)) =
    host (super self provider SUPERDISPATCH w).2 ∧
  filter (λ e, is_store e || is_load e)
    (trace (run super (hook self provider) w)) = [].
Proof. rewrite run_Start_Impl. repeat split. Qed.

(** C8. The message of the record is the literal "Hello World". *)
Theorem Start_logs_hello_world (self provider : ptr) (w : World Host) :
  rec_format <$> emitted (trace (run super (hook self provider) w)) =
  ["Hello World"%string].
Proof. now rewrite trace_Start_Impl. Qed.

(** C9. No validation of the provider: whatever the handle, the null one
    included, the hook's first action is the superclass call with that very
    handle, and what follows does not depend on it. *)
Theorem Start_forwards_any_provider (self : ptr) :
  (∃ k : kern_return_t → Prog kern_return_t,
     ∀ provider : ptr,
       hook self provider = Vis (CallStart self provider SUPERDISPATCH) k) ∧
  (∀ (provider : ptr) (w : World Host),
     head (trace (run super (hook self provider) w)) =
     Some (EvStart self provider SUPERDISPATCH
             (super self provider SUPERDISPATCH w).1)) ∧
  (∀ w : World Host,
     supercalls (trace (run super (hook self NULL) w)) =
     [(self, NULL, SUPERDISPATCH)] ∧
     result (run super (hook self NULL) w) =
     (super self NULL SUPERDISPATCH w).1).
Proof.
  split; [|split].
  - exists (λ ret, Vis (OsLog OS_LOG_DEFAULT "Hello World" []) (λ _, Ret ret)).
    reflexivity.
  - intros provider w. now rewrite trace_Start_Impl.
  - intros w. now rewrite run_Start_Impl.
Qed.

End StartProperties.

(** C3. The content of the log line is one fixed literal, the same for every
    invocation: it depends on no provider, no superclass answer, no world;
    it carries no argument and no conversion specification. *)
Theorem Start_log_content_fixed :
  ∃ msg : string,
    ∀ (Host : Type) (SUPERDISPATCH : OSDispatchMethod)
      (OS_LOG_DEFAULT : os_log_t) (super : Super Host)
      (self provider : ptr) (w : World Host),
      emitted (trace (run super
        (Start_Impl SUPERDISPATCH OS_LOG_DEFAULT self provider) w)) =
      [mkLogRecord OS_LOG_DEFAULT msg []] ∧
      is_literal (mkLogRecord OS_LOG_DEFAULT msg []) = true.
Proof.
  exists "Hello World"%string. intros.
  rewrite trace_Start_Impl. split; reflexivity.
Qed.

(** C10. The log output does not depend on the superclass's status: any two
    invocations, whatever their superclasses return (different statuses in
    particular), emit the same records and append the same suffix to the
    system log. *)
Theorem Start_log_independent_of_status
    (Host : Type) (SUPERDISPATCH : OSDispatchMethod)
    (OS_LOG_DEFAULT : os_log_t) (super1 super2 : Super Host)
    (self1 self2 provider1 provider2 : ptr) (w1 w2 : World Host) :
  let o1 := run super1
              (Start_Impl SUPERDISPATCH OS_LOG_DEFAULT self1 provider1) w1 in
  let o2 := run super2
              (Start_Impl SUPERDISPATCH OS_LOG_DEFAULT self2 provider2) w2 in
  emitted (trace o1) = emitted (trace o2) ∧
  ∃ r : LogRecord,
    syslog (final o1) =
      syslog (super1 self1 provider1 SUPERDISPATCH w1).2 ++ [r] ∧
    syslog (final o2) =
      syslog (super2 self2 provider2 SUPERDISPATCH w2).2 ++ [r].
Proof.
  cbv zeta. rewrite !run_Start_Impl. split; [reflexivity|].
  exists (hello OS_LOG_DEFAULT). split; reflexivity.
Qed.

(** The scenarios of C5 on the sample superclass: an accepted provider and
    the null one. *)
Lemma Start_scenarios_witness :
  (result (run sample_super (Start_Impl 7%N 9%N 1%N 2%N) sample_world) =
     kIOReturnSuccess ∧
   emitted (trace (run sample_super (Start_Impl 7%N 9%N 1%N 2%N)
                     sample_world)) = [hello 9%N]) ∧
  (result (run sample_super (Start_Impl 7%N 9%N 1%N NULL) sample_world) =
     kIOReturnError ∧
   emitted (trace (run sample_super (Start_Impl 7%N 9%N 1%N NULL)
                     sample_world)) = [hello 9%N]).
Proof.
  split.
  - apply (proj1 (Start_scenarios 7%N 9%N sample_super 1%N 2%N sample_world)).
    reflexivity.
  - apply (proj2 (Start_scenarios 7%N 9%N sample_super 1%N NULL sample_world)
             kIOReturnError).
    + discriminate.
    + reflexivity.
Defined.

(** The order of C6 on the sample superclass: the call is event 0, the log
    emission event 1. *)
Lemma Start_super_before_log_witness :
  trace (run sample_super (Start_Impl 7%N 9%N 1%N 2%N) sample_world) !! 0%nat =
    Some (EvStart 1%N 2%N 7%N kIOReturnSuccess) ∧
  trace (run sample_super (Start_Impl 7%N 9%N 1%N 2%N) sample_world) !! 1%nat =
    Some (EvOsLog (hello 9%N)) ∧
  (0 < 1)%nat.
Proof.
  split; [reflexivity|]. split; [reflexivity|].
  apply (proj1 (Start_super_before_log 7%N 9%N sample_super 1%N 2%N
                  sample_world) 0%nat 1%nat
           (EvStart 1%N 2%N 7%N kIOReturnSuccess) (EvOsLog (hello 9%N)));
    reflexivity.
Defined.

(** Two concrete invocations, evaluated. *)
Example Start_sample_accepts :
  run sample_super (Start_Impl 7%N 9%N 1%N 2%N) sample_world =
  (kIOReturnSuccess,
   mkWorld [mkLogRecord 9%N "Hello World" []] ∅ [2%N],
   [EvStart 1%N 2%N 7%N kIOReturnSuccess;
    EvOsLog (mkLogRecord 9%N "Hello World" [])]).
Proof. reflexivity. Qed.

Example Start_sample_null_provider :
  run sample_super (Start_Impl 7%N 9%N 1%N NULL) sample_world =
  (kIOReturnError,
   mkWorld [mkLogRecord 9%N "Hello World" []] ∅ [],
   [EvStart 1%N NULL 7%N kIOReturnError;
    EvOsLog (mkLogRecord 9%N "Hello World" [])]).
Proof. reflexivity. Qed.

(** ** Repeated invocations *)
Section Repeated.
Context {Host : Type}.
Variable SUPERDISPATCH : OSDispatchMethod.
Variable OS_LOG_DEFAULT : os_log_t.
Variable super : Super Host.

Local Abbreviation hook := (Start_Impl SUPERDISPATCH OS_LOG_DEFAULT).
Local Abbreviation hello_rec := (hello OS_LOG_DEFAULT).
Local Abbreviation starts := (start_each SUPERDISPATCH OS_LOG_DEFAULT super).

Lemma start_each_cons (self provider : ptr) (rest : list ptr)
    (w : World Host) :
  starts self (provider :: rest) w =
  let sr := super self provider SUPERDISPATCH w in
  let o' := starts self rest (log_append hello_rec sr.2) in
  (sr.1 :: result o', final o',
   EvStart self provider SUPERDISPATCH sr.1 :: EvOsLog hello_rec :: trace o').
Proof. cbn [start_each]. rewrite run_Start_Impl. reflexivity. Qed.

(** X1. The hook keeps no started-once guard: invoked once per provider of
    a list, it calls the superclass [Start] for each provider, in order and
    with that provider, writes one "Hello World" record per invocation, and
    returns one status per invocation. *)
Theorem start_each_every_invocation_acts (self : ptr) (providers : list ptr)
    (w : World Host) :
  supercalls (trace (starts self providers w)) =
    (λ provider, (self, provider, SUPERDISPATCH)) <$> providers ∧
  emitted (trace (starts self providers w)) =
    replicate (length providers) hello_rec ∧
  length (result (starts self providers w)) = length providers.
Proof.
  revert w. induction providers as [|provider rest IH]; intros w.
  - repeat split.
  - rewrite start_each_cons. cbv zeta.
    destruct (IH (log_append hello_rec
                    (super self provider SUPERDISPATCH w).2))
      as (Hcalls & Hlogs & Hlen).
    unfold supercalls, emitted, result, trace in *. cbn in *.
    rewrite Hcalls, Hlogs, Hlen. repeat split.
Qed.

(** X2. The hook only ever adds to the system log. Under a superclass that
    keeps the log, the log before any number of invocations is a prefix of
    the log after them, and the log has grown by at least one record per
    invocation. *)
Theorem start_each_log_grows (Hkeep : keeps_log super) (self : ptr)
    (providers : list ptr) (w : World Host) :
  syslog w `prefix_of` syslog (final (starts self providers w)) ∧
  (length (syslog w) + length providers ≤
   length (syslog (final (starts self providers w))))%nat.
Proof.
  revert w. induction providers as [|provider rest IH]; intros w.
  - cbn. split; [reflexivity | lia].
  - rewrite start_each_cons. cbv zeta.
    set (w1 := (super self provider SUPERDISPATCH w).2).
    destruct (IH (log_append hello_rec w1)) as (Hpre & Hlen).
    assert (Hw1 : syslog w `prefix_of` syslog w1) by apply Hkeep.
    unfold final in *. cbn [fst snd] in *. split.
    + etrans; [exact Hw1|]. etrans; [|exact Hpre].
      cbn [log_append syslog]. apply prefix_app_r. reflexivity.
    + apply prefix_length in Hw1.
      cbn [log_append syslog] in Hlen. rewrite length_app in Hlen.
      cbn in Hlen |- *. lia.
Qed.

(** X3. The hook never writes object memory: under a superclass that keeps
    memory, memory after any number of invocations is memory before. *)
Theorem start_each_memory_unchanged (Hkeep : keeps_memory super) (self : ptr)
    (providers : list ptr) (w : World Host) :
  memory (final (starts self providers w)) = memory w.
Proof.
  revert w. induction providers as [|provider rest IH]; intros w.
  - reflexivity.
  - rewrite start_each_cons. cbv zeta. unfold final in *. cbn [fst snd] in *.
    rewrite IH. cbn [log_append memory]. apply Hkeep.
Qed.

End Repeated.

Lemma sample_super_keeps_log : keeps_log sample_super.
Proof.
  intros self provider m w. unfold sample_super.
  destruct (decide (provider = NULL)); reflexivity.
Defined.

Lemma sample_super_keeps_memory : keeps_memory sample_super.
Proof.
  intros self provider m w. unfold sample_super.
  destruct (decide (provider = NULL)); reflexivity.
Defined.

(** X2 on the sample superclass: three starts, the null provider among
    them, from a log that already holds a record. *)
Lemma start_each_log_grows_witness :
  keeps_log sample_super ∧
  [mkLogRecord 4%N "boot" []] `prefix_of`
    syslog (final (start_each 7%N 9%N sample_super 1%N [2%N; NULL; 3%N]
                     (mkWorld [mkLogRecord 4%N "boot" []] ∅ []))) ∧
  (1 + 3 ≤
   length (syslog (final (start_each 7%N 9%N sample_super 1%N
                            [2%N; NULL; 3%N]
                            (mkWorld [mkLogRecord 4%N "boot" []] ∅ [])))))%nat.
Proof.
  split; [exact sample_super_keeps_log|].
  exact (start_each_log_grows 7%N 9%N sample_super sample_super_keeps_log
           1%N [2%N; NULL; 3%N] (mkWorld [mkLogRecord 4%N "boot" []] ∅ [])).
Defined.

(** X3 on the sample superclass, from a memory that holds one word. *)
Lemma start_each_memory_unchanged_witness :
  keeps_memory sample_super ∧
  memory (final (start_each 7%N 9%N sample_super 1%N [2%N; NULL]
                   (mkWorld [] {[ 16%N := 5 ]} []))) = {[ 16%N := 5 ]}.
Proof.
  split; [exact sample_super_keeps_memory|].
  exact (start_each_memory_unchanged 7%N 9%N sample_super
           sample_super_keeps_memory 1%N [2%N; NULL]
           (mkWorld [] {[ 16%N := 5 ]} [])).
Defined.

(** Three starts on the sample superclass, evaluated. *)
Example start_each_sample :
  result (start_each 7%N 9%N sample_super 1%N [2%N; NULL; 3%N] sample_world) =
    [kIOReturnSuccess; kIOReturnError; kIOReturnSuccess] ∧
  syslog (final (start_each 7%N 9%N sample_super 1%N [2%N; NULL; 3%N]
                   sample_world)) = replicate 3 (hello 9%N) ∧
  host (final (start_each 7%N 9%N sample_super 1%N [2%N; NULL; 3%N]
                 sample_world)) = [3%N; 2%N].
Proof. repeat split. Qed.

End KPodHIDDriver.
